(** * GoldenGate status orchestrator (gg_status.py): model and properties

    The script builds a remote command text for one of three console
    intents, wraps it in an ssh/sudo line, hands it to [subprocess.run]
    and prints whatever string comes back.  The model below follows the
    Python source function by function.  Python strings are [string]s,
    the process environment is a [gmap], and the two effects of the
    script (launching a child process, writing on standard output) are
    threaded through a small state-and-exception monad. *)

From Stdlib Require Import ZArith Ascii.
From stdpp Require Import base gmap strings list.

Local Open Scope Z_scope.

(** ** Characters that matter to the two shells involved *)

Definition dquote : ascii := "034"%char.
Definition squote : ascii := "039"%char.
Definition backslash : ascii := "092"%char.
Definition newline : ascii := "010"%char.
Definition carriage_return : ascii := "013"%char.
Definition lbrace : ascii := "123"%char.
Definition rbrace : ascii := "125"%char.

Definition quote_mark : string := String dquote EmptyString.
Definition escaped_quote : string := String backslash quote_mark.

(** ** Python string primitives used by the script *)

Module Py.

(** What a Python call can raise in this script. *)
Inductive exn :=
| CalledProcessError (returncode : Z) (stderr : string)
| OSError (msg : string)
| UnicodeDecodeError (msg : string)
| KeyError (key : string)
| ValueError (msg : string).

(** [s.replace(old, new)] for a one-character [old]. *)
Fixpoint replace (old : ascii) (new : string) (s : string) : string :=
  match s with
  | EmptyString => EmptyString
  | String c r =>
      if Ascii.eqb c old then new +:+ replace old new r
      else String c (replace old new r)
  end.

(** [template.format(name=value, ...)] for templates whose replacement fields
    are plain keyword names: text outside braces is copied, [{name}]
    is replaced by the value of [name], a missing name raises
    [KeyError] and an unbalanced brace raises [ValueError].  [field]
    is the name collected so far while scanning inside braces. *)
Fixpoint format_from (field : option string) (kwargs : string -> option string)
    (template : string) : exn + string :=
  match template, field with
  | EmptyString, None => inr EmptyString
  | EmptyString, Some _ => inl (ValueError "expected '}' before end of string")
  | String c r, None =>
      if Ascii.eqb c lbrace then format_from (Some EmptyString) kwargs r
      else if Ascii.eqb c rbrace
           then inl (ValueError "Single '}' encountered in format string")
      else match format_from None kwargs r with
           | inr out => inr (String c out)
           | inl e => inl e
           end
  | String c r, Some name =>
      if Ascii.eqb c rbrace then
        match kwargs name with
        | Some v =>
            match format_from None kwargs r with
            | inr out => inr (v +:+ out)
            | inl e => inl e
            end
        | None => inl (KeyError name)
        end
      else format_from (Some (name +:+ String c EmptyString)) kwargs r
  end.

Definition format (template : string) (kwargs : string -> option string)
  : exn + string :=
  format_from None kwargs template.

(** What [universal_newlines=True] does to a decoded output: every
    carriage return followed by a newline, and every other carriage
    return, becomes one newline. *)
Fixpoint universal_newlines (s : string) : string :=
  match s with
  | EmptyString => EmptyString
  | String c r =>
      if Ascii.eqb c carriage_return then
        match r with
        | String d r' =>
            if Ascii.eqb d newline then String newline (universal_newlines r')
            else String newline (universal_newlines r)
        | EmptyString => String newline EmptyString
        end
      else String c (universal_newlines r)
  end.

(** Truth value of a string: only [''] is falsy. *)
Definition truthy (s : string) : bool :=
  match s with
  | EmptyString => false
  | String _ _ => true
  end.

End Py.

(** ** Text utilities used to state the properties *)

(** [s.split(sep)] on one separator character: the pieces between
    separators, so a text ending in a newline has a last empty piece. *)
Fixpoint split_on (sep : ascii) (s : string) : list string :=
  match s with
  | EmptyString => [EmptyString]
  | String c r =>
      if Ascii.eqb c sep then EmptyString :: split_on sep r
      else match split_on sep r with
           | h :: t => String c h :: t
           | [] => [String c EmptyString]
           end
  end.

Definition lines (s : string) : list string := split_on newline s.

(** Every line followed by a newline, as a triple-quoted block is laid out. *)
Fixpoint unlines (ls : list string) : string :=
  match ls with
  | [] => EmptyString
  | l :: rest => l +:+ String newline (unlines rest)
  end.

Fixpoint has_char (c : ascii) (s : string) : bool :=
  match s with
  | EmptyString => false
  | String d r => Ascii.eqb d c || has_char c r
  end.

(** ** The outside world *)

(** What [subprocess.run] hands back once the child has terminated. *)
Record CompletedProcess := {
  returncode : Z;
  stdout : string;
  stderr : string
}.

(** What becomes of the child that [subprocess.run] starts: the local
    shell cannot be started at all; or the child ran but what it wrote
    is not text in the encoding of the locale; or it ran to its end,
    with its exit status and what it wrote on standard output and
    standard error, decoded, newlines not yet translated. *)
Inductive Child :=
| NotStarted (msg : string)
| Garbled (msg : string)
| Exited (returncode : Z) (out err : string).

(** The observable trace of one run of the script: the command lines
    given to [subprocess.run], oldest first, and the text written on
    standard output. *)
Record World := {
  launched : list string;
  printed : string
}.

Definition fresh : World := {| launched := []; printed := EmptyString |}.

(** Computations that may raise and that act on the world. *)
Definition M (A : Type) : Type := World -> (Py.exn + A) * World.

Global Instance M_ret : MRet M := fun A a w => (inr a, w).
Global Instance M_bind : MBind M := fun A B k m w =>
  match m w with
  | (inr a, w') => k a w'
  | (inl e, w') => (inl e, w')
  end.
Definition lift {A} (r : Py.exn + A) : M A := fun w => (r, w).

(** [try: body except CalledProcessError as e: handler(e)]; any other
    exception passes through. *)
Definition try_except_CalledProcessError {A} (body : M A)
    (handler : Z -> string -> M A) : M A :=
  fun w => match body w with
           | (inl (Py.CalledProcessError rc err), w') => handler rc err w'
           | other => other
           end.

Definition print (s : string) : M unit :=
  fun w => (inr tt, {| launched := launched w;
                       printed := printed w +:+ s +:+ String newline EmptyString |}).

(** ** gg_status.py *)

Section GGStatus.

(** The local shell together with everything behind it (ssh, sudo, the
    remote host): what becomes of the child for a given command line.
    No [env=] is passed, so the child inherits the environment. *)
Variable shell : gmap string string -> string -> Child.

(** The process environment after [load_dotenv()]. *)
Variable environ : gmap string string.

(** The part of [subprocess.run] that starts the child and collects its
    output: [OSError] when the child cannot be started,
    [UnicodeDecodeError] when its output cannot be decoded, otherwise
    the exit status with the two texts, newlines translated. *)
Definition communicate (cmd : string) : Py.exn + CompletedProcess :=
  match shell environ cmd with
  | NotStarted msg => inl (Py.OSError msg)
  | Garbled msg => inl (Py.UnicodeDecodeError msg)
  | Exited rc out err =>
      inr {| returncode := rc;
             stdout := Py.universal_newlines out;
             stderr := Py.universal_newlines err |}
  end.

(** [subprocess.run(cmd, shell=True, check=True, stdout=PIPE,
    stderr=PIPE, stdin=PIPE, universal_newlines=True)]: runs the
    command line and, because of [check=True], raises
    [CalledProcessError] when the exit status is not zero. *)
Definition subprocess_run (cmd : string) : M CompletedProcess :=
  fun w =>
    let w' := {| launched := launched w ++ [cmd]; printed := printed w |} in
    match communicate cmd with
    | inl e => (inl e, w')
    | inr r =>
        if returncode r =? 0 then (inr r, w')
        else (inl (Py.CalledProcessError (returncode r) (stderr r)), w')
    end.

Definition getenv (key default : string) : string :=
  match environ !! key with
  | Some v => v
  | None => default
  end.

(** The f-string of [run_ssh_command]. *)
Definition ssh_command (host command : string) : string :=
  "ssh -tt pulseuser@" +:+ host +:+ " 'sudo su - ggudb -c "
    +:+ String dquote command +:+ String dquote "'".

Definition run_ssh_command (host command : string) : M string :=
  try_except_CalledProcessError
    (result ← subprocess_run (ssh_command host command);
     mret (stdout result))
    (fun _ err => mret ("Error executing command: " +:+ err)).

(** The f-string of [run_ggsci_command], applied to the already
    escaped command. *)
Definition gg_script (command : string) : string :=
  "echo '" +:+ command +:+ "' | ggsci".

Definition escape (command : string) : string :=
  Py.replace dquote escaped_quote command.

Definition run_ggsci_command (host command : string) : M string :=
  let command := escape command in
  run_ssh_command host (gg_script command).

Definition get_info_all (host : string) : M string :=
  run_ggsci_command host "info all".

Definition get_info_credentialstore (host : string) : M string :=
  run_ggsci_command host "info credentialstore".

(** The triple-quoted template of [get_lag_info], one source line per
    list element, every line ending in a newline. *)
Definition temp_script_template : string :=
  unlines
    [ "#!/bin/bash";
      "# Create a temporary file with GGSCI commands";
      "cat > /tmp/gg_commands.txt << 'EOF'";
      "dblogin useridalias {cred}";
      "lag";
      "info all";
      "exit";
      "EOF";
      "";
      "# Run GGSCI with the commands file";
      "ggsci < /tmp/gg_commands.txt";
      "rm -f /tmp/gg_commands.txt" ].

Definition cred_kwargs (credentialstore : string) (name : string)
  : option string :=
  if String.eqb name "cred" then Some credentialstore else None.

Definition temp_script (credentialstore : string) : Py.exn + string :=
  Py.format temp_script_template (cred_kwargs credentialstore).

Definition get_lag_info (host credentialstore : string) : M string :=
  script ← lift (temp_script credentialstore);
  run_ssh_command host script.

(** The parsed command line: [--host] and [--command] are required
    and restricted to their choices, [--credstore] is optional. *)
Inductive host_choice := gg1 | gg2.
Inductive command_choice := info | credstore | lag.

Record Namespace := {
  arg_host : host_choice;
  arg_command : command_choice;
  arg_credstore : option string
}.

Definition resolve_host (h : host_choice) : string :=
  match h with
  | gg1 => getenv "GG1_HOST" "testdb-ho-03.com"
  | gg2 => getenv "GG2_HOST" "testdb-ho-06.com"
  end.

Definition credstore_required : string :=
  "Error: --credstore is required for lag command".

(** [main], from the parsed arguments on.  [not args.credstore] holds
    for a missing alias and for an empty one. *)
Definition main (args : Namespace) : M unit :=
  let hostname := resolve_host (arg_host args) in
  match arg_command args with
  | info =>
      result ← get_info_all hostname;
      print result
  | credstore =>
      result ← get_info_credentialstore hostname;
      print result
  | lag =>
      match arg_credstore args with
      | None => print credstore_required
      | Some alias =>
          if negb (Py.truthy alias) then print credstore_required
          else
            result ← get_lag_info hostname alias;
            print result
      end
  end.

(** Exit status of the interpreter once [main()] is over: zero when it
    returns, one when an exception escapes. *)
Definition exit_status {A} (outcome : Py.exn + A) : Z :=
  match outcome with
  | inr _ => 0
  | inl _ => 1
  end.

Definition run (args : Namespace) : (Py.exn + unit) * World :=
  main args fresh.

End GGStatus.

(** ** Shell quoting, as far as the generated lines depend on it *)

Definition prepend (c : ascii) (o : option (string * string))
  : option (string * string) :=
  match o with
  | Some (body, rest) => Some (String c body, rest)
  | None => None
  end.

(** The text that follows an opening single quote: every character
    stands for itself and the next single quote closes the argument.
    The result is the quoted text and what is left after the closing
    quote; [None] when the quote is never closed. *)
Fixpoint single_quoted (s : string) : option (string * string) :=
  match s with
  | EmptyString => None
  | String c r =>
      if Ascii.eqb c squote then Some (EmptyString, r)
      else prepend c (single_quoted r)
  end.

Fixpoint strip_prefix (p s : string) : option string :=
  match p, s with
  | EmptyString, _ => Some s
  | String a p', String b s' =>
      if Ascii.eqb a b then strip_prefix p' s' else None
  | String _ _, EmptyString => None
  end.

(** The single-quoted argument of [echo] in a line built by
    [run_ggsci_command], read as a shell line on its own, and the rest
    of the line after it. *)
Definition echo_argument (line : string) : option (string * string) :=
  strip_prefix "echo '" line ≫= single_quoted.

(** Every double quote of [s] comes right after a backslash. *)
Fixpoint dquotes_backslashed_from (after_backslash : bool) (s : string) : bool :=
  match s with
  | EmptyString => true
  | String c r =>
      (if Ascii.eqb c dquote then after_backslash else true)
      && dquotes_backslashed_from (Ascii.eqb c backslash) r
  end.

Definition dquotes_backslashed : string -> bool :=
  dquotes_backslashed_from false.

(** ** The here-document of the lag script *)

Definition temp_file : string := "/tmp/gg_commands.txt".
Definition heredoc_opener : string := "cat > " +:+ temp_file +:+ " << 'EOF'".
Definition terminator : string := "EOF".

Definition login_line (alias : string) : string :=
  "dblogin useridalias " +:+ alias.

(** The layout of the template once the alias is filled in: the lines
    up to the here-document, the console commands, and what follows the
    terminator line. *)
Definition script_head : list string :=
  [ "#!/bin/bash";
    "# Create a temporary file with GGSCI commands";
    heredoc_opener ].

Definition heredoc_commands (alias : string) : list string :=
  [ login_line alias; "lag"; "info all"; "exit" ].

Definition script_tail : list string :=
  [ "";
    "# Run GGSCI with the commands file";
    "ggsci < " +:+ temp_file;
    "rm -f " +:+ temp_file ].

(** The lines before the first one equal to [stop]. *)
Fixpoint until_line (stop : string) (ls : list string) : list string :=
  match ls with
  | [] => []
  | l :: rest => if String.eqb l stop then [] else l :: until_line stop rest
  end.

(** The lines after the first one equal to [start]. *)
Fixpoint after_line (start : string) (ls : list string) : list string :=
  match ls with
  | [] => []
  | l :: rest => if String.eqb l start then rest else after_line start rest
  end.

(** The here-document as the text of the script has it: the lines after
    the [cat] line, up to the first line that is exactly the
    terminator.  This reads the text as it leaves [get_lag_info]; the
    quoting that [run_ssh_command] puts around it is not followed. *)
Definition heredoc_content (script : string) : list string :=
  until_line terminator (after_line heredoc_opener (lines script)).

(** Whether [main] gets as far as opening a remote session. *)
Definition attempts_session (args : Namespace) : bool :=
  match arg_command args, arg_credstore args with
  | lag, None => false
  | lag, Some alias => Py.truthy alias
  | _, _ => true
  end.

(** A remote side that refuses every session with the same message. *)
Definition refusing (status : Z) (message : string)
  : gmap string string -> string -> Child :=
  fun _ _ => Exited status EmptyString message.

(** A remote side where every command succeeds and prints [output]. *)
Definition answering (output : string) : gmap string string -> string -> Child :=
  fun _ _ => Exited 0 output EmptyString.

(** A remote side whose output cannot be decoded, and a local shell that
    cannot be started. *)
Definition garbling (msg : string) : gmap string string -> string -> Child :=
  fun _ _ => Garbled msg.

Definition not_starting (msg : string) : gmap string string -> string -> Child :=
  fun _ _ => NotStarted msg.

Definition error_prefix : string := "Error executing command: ".

(** Sample console commands: one with a quoted word, one with a single
    quote inside the quoted word. *)
Definition report_detail : string :=
  "info all, report " +:+ quote_mark +:+ "detail" +:+ quote_mark.

(** ** More about the dispatcher *)

(** The environment variable [main] reads for a host identifier. *)
Definition host_variable (h : host_choice) : string :=
  match h with
  | gg1 => "GG1_HOST"
  | gg2 => "GG2_HOST"
  end.

(** ** tablespace.py and fra.py *)

Module Reports.

(** What the code of the two report scripts can raise.  [SystemExit] is
    not an [Exception], so [except Exception] lets it through. *)
Inductive exn :=
| DatabaseError (msg : string)
| TypeError (msg : string)
| SystemExit (code : Z).

(** The calls made on the Oracle driver, in the order they happen. *)
Inductive db_call :=
| init_oracle_client (lib_dir : string)
| connect (username password dsn : option string)
| open_cursor
| execute (query : string)
| fetchall
| cursor_close
| connection_close.

Record World := {
  calls : list db_call;
  printed : string
}.

Definition fresh : World := {| calls := []; printed := EmptyString |}.

Definition R (A : Type) : Type := World -> (exn + A) * World.

Global Instance R_ret : MRet R := fun A a w => (inr a, w).
Global Instance R_bind : MBind R := fun A B k m w =>
  match m w with
  | (inr a, w') => k a w'
  | (inl e, w') => (inl e, w')
  end.

Definition lift {A} (r : exn + A) : R A := fun w => (r, w).

(** Sequencing of steps that only compute or raise. *)
Global Instance raising_bind : MBind (sum exn) := fun A B k r =>
  match r with
  | inr a => k a
  | inl e => inl e
  end.

Definition call (c : db_call) : R unit :=
  fun w => (inr tt, {| calls := calls w ++ [c]; printed := printed w |}).

(** [try: body except Exception as e: handler(str(e))]. *)
Definition try_except_Exception {A} (body : R A) (handler : string -> R A)
  : R A :=
  fun w => match body w with
           | (inl (DatabaseError msg), w') => handler msg w'
           | (inl (TypeError msg), w') => handler msg w'
           | other => other
           end.

Definition print (s : string) : R unit :=
  fun w => (inr tt, {| calls := calls w;
                       printed := printed w +:+ s +:+ String newline EmptyString |}).

(** [sys.exit(code)]. *)
Definition sys_exit {A} (code : Z) : R A := fun w => (inl (SystemExit code), w).

(** [s * n] *)
Fixpoint str_mul (s : string) (n : nat) : string :=
  match n with
  | O => EmptyString
  | S n' => s +:+ str_mul s n'
  end.

(** The format spec [<width]: the text, then spaces up to [width];
    a longer text is left as it is. *)
Definition ljust (width : nat) (s : string) : string :=
  s +:+ str_mul " " (width - String.length s)%nat.

(** [str(x)] inside an f-string for a value that may be [None]. *)
Definition str_of (o : option string) : string :=
  match o with
  | Some s => s
  | None => "None"
  end.

Definition none_format : string :=
  "unsupported format string passed to NoneType.__format__".

(** [f"{cell:<width}"] for a text column; a NULL comes back from the
    driver as [None], which rejects any format spec. *)
Definition format_text (width : nat) (cell : option string) : exn + string :=
  match cell with
  | Some s => inr (ljust width s)
  | None => inl (TypeError none_format)
  end.

Inductive db_choice := db1 | db2.

Section Scripts.

(** Numbers as the driver returns them, and their rendering with two
    decimals (the [.2f] part of a format spec). *)
Variable number : Type.
Variable fixed2 : number -> string.

(** [os.path.expanduser] *)
Variable expanduser : string -> string.

(** The process environment after [load_dotenv()]. *)
Variable environ : gmap string string.

(** The Oracle side: whether the client library loads from a directory,
    whether a connection opens, and what a query gives, an error
    message or the fetched rows. *)
Record Driver (Row : Type) := {
  init_result : string -> option string;
  connect_result : option string -> option string -> option string -> option string;
  execute_result : string -> string + list Row
}.
Arguments init_result {Row}.
Arguments connect_result {Row}.
Arguments execute_result {Row}.

(** [f"{cell:<width.2f}"] *)
Definition format_number (width : nat) (cell : option number) : exn + string :=
  match cell with
  | Some x => inr (ljust width (fixed2 x))
  | None => inl (TypeError none_format)
  end.

Definition cx_init_oracle_client {Row} (driver : Driver Row) (lib_dir : string)
  : R unit :=
  _ ← call (init_oracle_client lib_dir);
  match init_result driver lib_dir with
  | Some msg => lift (inl (DatabaseError msg))
  | None => mret tt
  end.

Definition cx_connect {Row} (driver : Driver Row)
    (username password dsn : option string) : R unit :=
  _ ← call (connect username password dsn);
  match connect_result driver username password dsn with
  | Some msg => lift (inl (DatabaseError msg))
  | None => mret tt
  end.

Definition cursor_execute {Row} (driver : Driver Row) (query : string) : R unit :=
  _ ← call (execute query);
  match execute_result driver query with
  | inl msg => lift (inl (DatabaseError msg))
  | inr _ => mret tt
  end.

Definition cursor_fetchall {Row} (driver : Driver Row) (query : string)
  : R (list Row) :=
  _ ← call fetchall;
  match execute_result driver query with
  | inl msg => lift (inl (DatabaseError msg))
  | inr rows => mret rows
  end.

(** The connection details picked at module level, the same lines in
    both scripts: user, password, DSN and display name of the selected
    database, each [None] when its variable is not set. *)
Definition connection_details (db : db_choice)
  : option string * option string * option string * option string :=
  match db with
  | db1 => (environ !! "DB1_USER", environ !! "DB1_PASSWORD",
            environ !! "DB1_DSN", environ !! "DB1_NAME")
  | db2 => (environ !! "DB2_USER", environ !! "DB2_PASSWORD",
            environ !! "DB2_DSN", environ !! "DB2_NAME")
  end.

Definition client_path : string := expanduser "~/oracle/instantclient_21_19".

(** The start of both scripts: load the client library or give up with
    exit status 1. *)
Definition init_client {Row} (driver : Driver Row) : R unit :=
  try_except_Exception
    (cx_init_oracle_client driver client_path)
    (fun msg =>
       _ ← print ("Error initializing Oracle client: " +:+ msg);
       sys_exit 1).

(** *** tablespace.py *)

Definition tablespace_row : Type :=
  option string * option number * option number * option number.

Definition tablespace_query : string :=
  String newline
    (unlines
       [ "        SELECT";
         "            tablespace_name,";
         "            ROUND(used_space*8/1024,2) AS used_mb,";
         "            ROUND((tablespace_size-used_space)*8/1024,2) AS free_mb,";
         "            ROUND(used_space*100/tablespace_size,2) AS used_percent";
         "        FROM";
         "            dba_tablespace_usage_metrics";
         "        ORDER BY";
         "            used_percent DESC" ]
     +:+ "        ").

Definition tablespace_header (db_name : option string) : string :=
  "TABLESPACE USAGE REPORT - " +:+ str_of db_name +:+ String newline EmptyString
  +:+ str_mul "=" 70 +:+ String newline EmptyString
  +:+ ljust 30 "TABLESPACE" +:+ " " +:+ ljust 15 "USED (MB)" +:+ " "
  +:+ ljust 15 "FREE (MB)" +:+ " " +:+ ljust 10 "USED %"
  +:+ String newline EmptyString
  +:+ str_mul "-" 70 +:+ String newline EmptyString.

(** The f-string of the loop body. *)
Definition tablespace_line (row : tablespace_row) : exn + string :=
  let '(name, used_mb, free_mb, used_percent) := row in
  c0 ← format_text 30 name;
  c1 ← format_number 15 used_mb;
  c2 ← format_number 15 free_mb;
  c3 ← format_number 10 used_percent;
  inr (c0 +:+ " " +:+ c1 +:+ " " +:+ c2 +:+ " " +:+ c3
         +:+ String newline EmptyString).

(** [for row in results: output += ...] *)
Fixpoint tablespace_lines (output : string) (results : list tablespace_row)
  : exn + string :=
  match results with
  | [] => inr output
  | row :: rest =>
      match tablespace_line row with
      | inr line => tablespace_lines (output +:+ line) rest
      | inl e => inl e
      end
  end.

Definition get_tablespace_usage (driver : Driver tablespace_row)
    (username password dsn db_name : option string) : R string :=
  try_except_Exception
    (_ ← cx_connect driver username password dsn;
     _ ← call open_cursor;
     _ ← cursor_execute driver tablespace_query;
     results ← cursor_fetchall driver tablespace_query;
     output ← lift (tablespace_lines (tablespace_header db_name) results);
     _ ← call cursor_close;
     _ ← call connection_close;
     mret output)
    (fun msg => mret ("Error retrieving tablespace information: " +:+ msg)).

(** The whole script, for the parsed [--db] choice. *)
Definition tablespace_script (driver : Driver tablespace_row) (db : db_choice)
  : R unit :=
  _ ← init_client driver;
  let '(username, password, dsn, db_name) := connection_details db in
  report ← get_tablespace_usage driver username password dsn db_name;
  print report.

(** *** fra.py *)

Definition fra_row : Type :=
  option string * option number * option number * option number * option number.

Definition fra_query : string :=
  String newline
    (unlines
       [ "        SELECT";
         "            name,";
         "            ROUND(space_limit/1024/1024,2) AS limit_mb,";
         "            ROUND(space_used/1024/1024,2) AS used_mb,";
         "            ROUND(space_reclaimable/1024/1024,2) AS reclaimable_mb,";
         "            ROUND(((space_used-space_reclaimable)/space_limit)*100,2) AS used_percent";
         "        FROM";
         "            V$RECOVERY_FILE_DEST" ]
     +:+ "        ").

Definition fra_header (db_name : option string) : string :=
  "FLASH RECOVERY AREA USAGE REPORT - " +:+ str_of db_name
  +:+ String newline EmptyString
  +:+ str_mul "=" 80 +:+ String newline EmptyString
  +:+ ljust 30 "NAME" +:+ " " +:+ ljust 15 "LIMIT (MB)" +:+ " "
  +:+ ljust 15 "USED (MB)" +:+ " " +:+ ljust 20 "RECLAIMABLE (MB)" +:+ " "
  +:+ ljust 10 "USED %"
  +:+ String newline EmptyString
  +:+ str_mul "-" 80 +:+ String newline EmptyString.

Definition fra_line (row : fra_row) : exn + string :=
  let '(name, limit_mb, used_mb, reclaimable_mb, used_percent) := row in
  c0 ← format_text 30 name;
  c1 ← format_number 15 limit_mb;
  c2 ← format_number 15 used_mb;
  c3 ← format_number 20 reclaimable_mb;
  c4 ← format_number 10 used_percent;
  inr (c0 +:+ " " +:+ c1 +:+ " " +:+ c2 +:+ " " +:+ c3 +:+ " " +:+ c4
         +:+ String newline EmptyString).

Fixpoint fra_lines (output : string) (results : list fra_row) : exn + string :=
  match results with
  | [] => inr output
  | row :: rest =>
      match fra_line row with
      | inr line => fra_lines (output +:+ line) rest
      | inl e => inl e
      end
  end.

Definition get_fra_usage (driver : Driver fra_row)
    (username password dsn db_name : option string) : R string :=
  try_except_Exception
    (_ ← cx_connect driver username password dsn;
     _ ← call open_cursor;
     _ ← cursor_execute driver fra_query;
     results ← cursor_fetchall driver fra_query;
     output ← lift (fra_lines (fra_header db_name) results);
     _ ← call cursor_close;
     _ ← call connection_close;
     mret output)
    (fun msg => mret ("Error retrieving FRA information: " +:+ msg)).

Definition fra_script (driver : Driver fra_row) (db : db_choice) : R unit :=
  _ ← init_client driver;
  let '(username, password, dsn, db_name) := connection_details db in
  report ← get_fra_usage driver username password dsn db_name;
  print report.

(** Exit status of the interpreter at the end of a script: the code of
    [sys.exit], one for any other exception, zero otherwise. *)
Definition exit_status {A} (outcome : exn + A) : Z :=
  match outcome with
  | inr _ => 0
  | inl (SystemExit code) => code
  | inl _ => 1
  end.

(** A row none of whose cells is NULL. *)
Definition tablespace_row_filled (row : tablespace_row) : bool :=
  let '(name, used_mb, free_mb, used_percent) := row in
  bool_decide (is_Some name) && bool_decide (is_Some used_mb)
  && bool_decide (is_Some free_mb) && bool_decide (is_Some used_percent).

Definition fra_row_filled (row : fra_row) : bool :=
  let '(name, limit_mb, used_mb, reclaimable_mb, used_percent) := row in
  bool_decide (is_Some name) && bool_decide (is_Some limit_mb)
  && bool_decide (is_Some used_mb) && bool_decide (is_Some reclaimable_mb)
  && bool_decide (is_Some used_percent).

(** Rows as the queries give them when no cell is NULL, and the line
    each one is rendered as. *)
Definition tablespace_cells (row : string * number * number * number)
  : tablespace_row :=
  let '(name, used_mb, free_mb, used_percent) := row in
  (Some name, Some used_mb, Some free_mb, Some used_percent).

Definition tablespace_text (row : string * number * number * number) : string :=
  let '(name, used_mb, free_mb, used_percent) := row in
  ljust 30 name +:+ " " +:+ ljust 15 (fixed2 used_mb) +:+ " "
  +:+ ljust 15 (fixed2 free_mb) +:+ " " +:+ ljust 10 (fixed2 used_percent)
  +:+ String newline EmptyString.



End Scripts.

Arguments init_result {Row}.
Arguments connect_result {Row}.
Arguments execute_result {Row}.


(** A driver for trying things out: numbers are given already rendered. *)
Definition sample_driver {Row} (init connecting : option string)
    (outcome : string + list Row) : Driver Row :=
  {| init_result := fun _ => init;
     connect_result := fun _ _ _ => connecting;
     execute_result := fun _ => outcome |}.

End Reports.

(** ** Concrete runs *)

Example run_info_default :
  run (answering "ok") ∅
      {| arg_host := gg1; arg_command := info; arg_credstore := None |}
  = (inr tt,
     {| launched :=
          [ "ssh -tt pulseuser@testdb-ho-03.com 'sudo su - ggudb -c "
              +:+ String dquote "echo 'info all' | ggsci"
              +:+ String dquote "'" ];
        printed := "ok" +:+ String newline EmptyString |}).
Proof. vm_compute. reflexivity. Qed.

Example run_lag_override :
  launched
    (run (answering "ok") {[ "GG2_HOST" := "10.1.2.3" ]}
         {| arg_host := gg2; arg_command := lag;
            arg_credstore := Some "PROD_CRED" |}).2
  = [ "ssh -tt pulseuser@10.1.2.3 'sudo su - ggudb -c "
        +:+ String dquote
              (unlines (script_head ++ heredoc_commands "PROD_CRED"
                          ++ [terminator] ++ script_tail))
        +:+ String dquote "'" ].
Proof. vm_compute. reflexivity. Qed.

Example escape_detail :
  gg_script (escape report_detail)
  = "echo 'info all, report " +:+ escaped_quote +:+ "detail" +:+ escaped_quote
      +:+ "' | ggsci".
Proof. vm_compute. reflexivity. Qed.

(** ** Facts about strings *)

Lemma append_nil_l (t : string) : EmptyString +:+ t = t.
Proof. reflexivity. Qed.

Lemma append_cons (c : ascii) (s t : string) :
  String c s +:+ t = String c (s +:+ t).
Proof. reflexivity. Qed.

Lemma append_nil_r (s : string) : s +:+ EmptyString = s.
Proof. induction s as [|c s IH]; [done|]. by rewrite append_cons, IH. Qed.

Lemma append_assoc (s t u : string) : (s +:+ t) +:+ u = s +:+ (t +:+ u).
Proof. induction s as [|c s IH]; [done|]. by rewrite !append_cons, IH. Qed.

Lemma has_char_cons (c d : ascii) (s : string) :
  has_char c (String d s) = Ascii.eqb d c || has_char c s.
Proof. reflexivity. Qed.

Lemma has_char_app (c : ascii) (s t : string) :
  has_char c (s +:+ t) = has_char c s || has_char c t.
Proof.
  induction s as [|d s IH]; [done|].
  rewrite append_cons. simpl. rewrite IH. by rewrite orb_assoc.
Qed.

Lemma replace_app (old : ascii) (new s t : string) :
  Py.replace old new (s +:+ t) = Py.replace old new s +:+ Py.replace old new t.
Proof.
  induction s as [|c s IH]; [done|].
  rewrite append_cons. simpl. rewrite IH.
  destruct (Ascii.eqb c old); [by rewrite append_assoc | done].
Qed.

Lemma unlines_app (ls ms : list string) :
  unlines (ls ++ ms) = unlines ls +:+ unlines ms.
Proof.
  induction ls as [|l ls IH]; [done|].
  simpl. rewrite IH. by rewrite append_assoc, append_cons.
Qed.

Lemma split_on_cons_inv (sep : ascii) (s : string) :
  ∃ h t, split_on sep s = h :: t.
Proof.
  destruct s as [|c s]; simpl; [by eauto|].
  destruct (Ascii.eqb c sep); [by eauto|].
  destruct (split_on sep s); by eauto.
Qed.

Lemma split_on_app_sep (sep : ascii) (s t : string) :
  split_on sep (s +:+ String sep t) = split_on sep s ++ split_on sep t.
Proof.
  induction s as [|c s IH].
  - rewrite append_nil_l. simpl. by rewrite Ascii.eqb_refl.
  - rewrite append_cons. simpl. rewrite IH.
    destruct (Ascii.eqb c sep); [done|].
    by destruct (split_on_cons_inv sep s) as (h & tl & ->).
Qed.

Lemma split_on_prefix (sep : ascii) (p s : string) :
  has_char sep p = false →
  split_on sep (p +:+ s)
  = (p +:+ hd EmptyString (split_on sep s)) :: tl (split_on sep s).
Proof.
  induction p as [|c p IH]; intros Hp.
  - rewrite !append_nil_l.
    by destruct (split_on_cons_inv sep s) as (h & tl & ->).
  - simpl in Hp. apply orb_false_iff in Hp as [Hc Hp].
    rewrite !append_cons. simpl. rewrite Hc, (IH Hp). done.
Qed.

Lemma split_on_no_sep (sep : ascii) (s : string) :
  has_char sep s = false → split_on sep s = [s].
Proof.
  intros Hs. rewrite <- (append_nil_r s) at 1.
  rewrite (split_on_prefix _ _ _ Hs). simpl. by rewrite append_nil_r.
Qed.

(** ** Facts about the monad and the remote session *)

Ltac step_monad :=
  unfold run_ssh_command, try_except_CalledProcessError, subprocess_run,
    communicate, mbind, M_bind, mret, M_ret; simpl.

(** What [run_ssh_command] does, by what becomes of the child: it
    launches one command line, prints nothing, and either lets the
    exception of a child that did not start or could not be decoded
    through, or returns the standard output (status zero) or the error
    text (any other status). *)
Lemma run_ssh_command_outcome shell environ (host command : string) (w : World) :
  run_ssh_command shell environ host command w
  = (match communicate shell environ (ssh_command host command) with
     | inl e => inl e
     | inr r =>
         inr (if returncode r =? 0 then stdout r
              else error_prefix +:+ stderr r)
     end,
     {| launched := launched w ++ [ssh_command host command];
        printed := printed w |}).
Proof.
  step_monad. destruct (shell environ (ssh_command host command)) as [msg|msg|rc out err];
    simpl; [done | done |].
  by destruct (rc =? 0).
Qed.

(** The template has a single replacement field, so formatting cannot
    fail, and the alias lands in the login line as it is. *)
Lemma temp_script_layout (alias : string) :
  temp_script alias
  = inr (unlines (script_head ++ heredoc_commands alias
                    ++ [terminator] ++ script_tail)).
Proof. reflexivity. Qed.

Lemma get_lag_info_script shell environ (host alias : string) :
  get_lag_info shell environ host alias
  = run_ssh_command shell environ host
      (unlines (script_head ++ heredoc_commands alias
                  ++ [terminator] ++ script_tail)).
Proof. reflexivity. Qed.

(** A run that opens a session launches one command line, built for
    the resolved address, and ends as the child of that line decides. *)
Lemma main_session shell environ (args : Namespace) :
  attempts_session args = true →
  ∃ script,
    run shell environ args
    = match communicate shell environ
              (ssh_command (resolve_host environ (arg_host args)) script) with
      | inl e =>
          (inl e,
           {| launched :=
                [ssh_command (resolve_host environ (arg_host args)) script];
              printed := EmptyString |})
      | inr r =>
          (inr tt,
           {| launched :=
                [ssh_command (resolve_host environ (arg_host args)) script];
              printed :=
                (if returncode r =? 0 then stdout r
                 else error_prefix +:+ stderr r)
                  +:+ String newline EmptyString |})
      end.
Proof.
  assert (Hprint : ∀ addr script,
    (result ← run_ssh_command shell environ addr script; print result) fresh
    = match communicate shell environ (ssh_command addr script) with
      | inl e =>
          (inl e, {| launched := [ssh_command addr script];
                     printed := EmptyString |})
      | inr r =>
          (inr tt,
           {| launched := [ssh_command addr script];
              printed := (if returncode r =? 0 then stdout r
                          else error_prefix +:+ stderr r)
                           +:+ String newline EmptyString |})
      end).
  { intros addr script. unfold mbind, M_bind.
    rewrite run_ssh_command_outcome.
    by destruct (communicate shell environ (ssh_command addr script)). }
  destruct args as [h c o]. unfold attempts_session, run, main. simpl.
  set (addr := resolve_host environ h).
  destruct c; [intros _ | intros _ | ].
  - exists (gg_script (escape "info all")). apply Hprint.
  - exists (gg_script (escape "info credentialstore")). apply Hprint.
  - destruct o as [alias|]; [|done]. intros Halias. rewrite Halias. simpl.
    rewrite get_lag_info_script. eexists. apply Hprint.
Qed.

(** ** The properties *)

(** C1.  For every host and every alias, the script that [get_lag_info]
    hands to the remote session is laid out as follows: the lines that
    open the here-document on the temporary file, then the login line
    carrying the alias, the lag line, the info-all line and the exit
    line, then the terminator, and at the end the console program reading
    the temporary file followed by the removal of that same file. *)
Theorem lag_script_in_order shell environ (host alias : string) (w : World) :
  ∃ script,
    temp_script alias = inr script
    ∧ launched (get_lag_info shell environ host alias w).2
      = launched w ++ [ssh_command host script]
    ∧ script
      = unlines
          ([ "#!/bin/bash";
             "# Create a temporary file with GGSCI commands";
             "cat > " +:+ temp_file +:+ " << 'EOF'" ]
           ++ [ "dblogin useridalias " +:+ alias; "lag"; "info all"; "exit" ]
           ++ [ "EOF"; ""; "# Run GGSCI with the commands file" ]
           ++ [ "ggsci < " +:+ temp_file; "rm -f " +:+ temp_file ]).
Proof.
  eexists. split; [apply temp_script_layout|]. split; [|done].
  by rewrite get_lag_info_script, run_ssh_command_outcome.
Qed.

(** C2.  With the lag command and no credential-store alias, whatever
    the host, [main] prints the fixed message about the missing
    [--credstore] and returns; no command line is launched. *)
Theorem lag_without_credstore shell environ (h : host_choice) :
  run shell environ {| arg_host := h; arg_command := lag; arg_credstore := None |}
  = (inr tt,
     {| launched := [];
        printed := "Error: --credstore is required for lag command"
                     +:+ String newline EmptyString |}).
Proof. reflexivity. Qed.

(** C3.  When every remote session ends with a nonzero exit status and
    the captured standard error is "auth failed", each of the three
    builders returns that text behind the fixed error prefix, and [main]
    prints it for every intent that opens a session. *)
Theorem auth_failure_reported shell environ (host alias : string)
    (args : Namespace) (w : World) :
  (∀ cmd, ∃ r, communicate shell environ cmd = inr r
               ∧ returncode r ≠ 0 ∧ stderr r = "auth failed") →
  (get_info_all shell environ host w).1
  = inr ("Error executing command: auth failed")
  ∧ (get_info_credentialstore shell environ host w).1
    = inr ("Error executing command: auth failed")
  ∧ (get_lag_info shell environ host alias w).1
    = inr ("Error executing command: auth failed")
  ∧ (attempts_session args = true →
     printed (run shell environ args).2
     = "Error executing command: auth failed" +:+ String newline EmptyString).
Proof.
  intros Hshell.
  assert (Hfail : ∀ h c w', (run_ssh_command shell environ h c w').1
                            = inr ("Error executing command: auth failed")).
  { intros h c w'. rewrite run_ssh_command_outcome.
    destruct (Hshell (ssh_command h c)) as (r & -> & Hrc & Herr).
    apply Z.eqb_neq in Hrc. simpl. by rewrite Hrc, Herr. }
  repeat split.
  - apply Hfail.
  - apply Hfail.
  - rewrite get_lag_info_script. apply Hfail.
  - intros Hargs.
    destruct (main_session shell environ args Hargs) as (script & ->).
    destruct (Hshell (ssh_command (resolve_host environ (arg_host args)) script))
      as (r & -> & Hrc & Herr).
    apply Z.eqb_neq in Hrc. simpl. by rewrite Hrc, Herr.
Qed.

Lemma auth_failure_reported_witness :
  (get_info_all (refusing 255 "auth failed") ∅ "testdb-ho-03.com" fresh).1
  = inr ("Error executing command: auth failed")
  ∧ printed (run (refusing 255 "auth failed") ∅
               {| arg_host := gg2; arg_command := lag;
                  arg_credstore := Some "PROD_CRED" |}).2
    = "Error executing command: auth failed" +:+ String newline EmptyString.
Proof.
  pose proof (auth_failure_reported (refusing 255 "auth failed") ∅
                "testdb-ho-03.com" "PROD_CRED"
                {| arg_host := gg2; arg_command := lag;
                   arg_credstore := Some "PROD_CRED" |} fresh) as H.
  destruct H as (H1 & _ & _ & H4).
  - intros cmd. eexists. split; [reflexivity|]. split; [discriminate | reflexivity].
  - split; [exact H1 | apply H4; reflexivity].
Defined.

(** C7.  For the alias PROD_CRED the here-document of the generated
    script holds the line [dblogin useridalias PROD_CRED], the alias
    being copied character for character, followed by the three fixed
    console commands. *)
Theorem prod_cred_login_line :
  ∃ script,
    temp_script "PROD_CRED" = inr script
    ∧ "dblogin useridalias PROD_CRED" ∈ heredoc_content script
    ∧ heredoc_content script
      = [ "dblogin useridalias PROD_CRED"; "lag"; "info all"; "exit" ].
Proof.
  exists (unlines (script_head ++ heredoc_commands "PROD_CRED"
                     ++ [terminator] ++ script_tail)).
  split; [apply temp_script_layout|].
  assert (Hc : heredoc_content
                 (unlines (script_head ++ heredoc_commands "PROD_CRED"
                             ++ [terminator] ++ script_tail))
               = [ "dblogin useridalias PROD_CRED"; "lag"; "info all"; "exit" ])
    by (vm_compute; reflexivity).
  split; [|exact Hc]. rewrite Hc. constructor.
Qed.

(** C8.  The address of the remote session depends only on the host
    identifier and on the environment: for gg1 it is the value of
    GG1_HOST when that variable is set and testdb-ho-03.com otherwise,
    for gg2 the value of GG2_HOST when set and testdb-ho-06.com
    otherwise.  That address is the one in the command line [main]
    launches. *)
Theorem host_resolution shell environ (args : Namespace) :
  attempts_session args = true →
  ∃ script,
    launched (run shell environ args).2
    = [ ssh_command
          match arg_host args with
          | gg1 => default "testdb-ho-03.com" (environ !! "GG1_HOST")
          | gg2 => default "testdb-ho-06.com" (environ !! "GG2_HOST")
          end
          script ].
Proof.
  intros Hargs.
  destruct (main_session shell environ args Hargs) as (script & ->).
  exists script.
  assert (Haddr : resolve_host environ (arg_host args)
                  = match arg_host args with
                    | gg1 => default "testdb-ho-03.com" (environ !! "GG1_HOST")
                    | gg2 => default "testdb-ho-06.com" (environ !! "GG2_HOST")
                    end).
  { unfold resolve_host, getenv. destruct (arg_host args).
    - by destruct (environ !! "GG1_HOST").
    - by destruct (environ !! "GG2_HOST"). }
  rewrite <- Haddr.
  by destruct (communicate shell environ _).
Qed.

Lemma host_resolution_witness :
  ∃ script,
    launched (run (answering "ok") {[ "GG1_HOST" := "10.0.0.7" ]}
                {| arg_host := gg1; arg_command := info;
                   arg_credstore := None |}).2
    = [ ssh_command "10.0.0.7" script ].
Proof.
  destruct (host_resolution (answering "ok") {[ "GG1_HOST" := "10.0.0.7" ]}
              {| arg_host := gg1; arg_command := info; arg_credstore := None |}
              eq_refl) as [script Hscript].
  exists script. rewrite Hscript. reflexivity.
Defined.

(** C9, as the code has it.  [run_ssh_command] catches
    [CalledProcessError] and nothing else.  The interpreter exits with
    status zero on the early return for the lag command without alias,
    which prints its message, and on every run whose child ran to its
    end with decodable output, whatever its exit status.  When the child
    cannot be started or its output cannot be decoded the exception
    leaves [main] and the exit status is one. *)
Theorem exit_status_by_child shell environ (args : Namespace) :
  (∀ h,
     let early := run shell environ
                    {| arg_host := h; arg_command := lag; arg_credstore := None |} in
     exit_status early.1 = 0
     ∧ printed early.2 = credstore_required +:+ String newline EmptyString)
  ∧ (attempts_session args = false →
     exit_status (run shell environ args).1 = 0)
  ∧ (attempts_session args = true →
     ∃ line,
       launched (run shell environ args).2 = [line]
       ∧ exit_status (run shell environ args).1
         = match shell environ line with
           | Exited _ _ _ => 0
           | NotStarted _ | Garbled _ => 1
           end).
Proof.
  split; [by intros h|]. split.
  - destruct args as [h [] [alias|]]; try discriminate; [|done].
    unfold attempts_session. simpl. intros Hargs.
    unfold run, main. simpl. by rewrite Hargs.
  - intros Hargs.
    destruct (main_session shell environ args Hargs) as (script & ->).
    exists (ssh_command (resolve_host environ (arg_host args)) script).
    unfold communicate. by destruct (shell environ _).
Qed.

Lemma exit_status_by_child_witness :
  exit_status
    (run (refusing 255 "auth failed") ∅
         {| arg_host := gg1; arg_command := lag; arg_credstore := Some EmptyString |}).1
  = 0
  ∧ ∃ line,
      launched
        (run (refusing 255 "auth failed") ∅
             {| arg_host := gg1; arg_command := info; arg_credstore := None |}).2
      = [line]
      ∧ exit_status
          (run (refusing 255 "auth failed") ∅
               {| arg_host := gg1; arg_command := info; arg_credstore := None |}).1
        = 0.
Proof.
  split.
  - destruct (exit_status_by_child (refusing 255 "auth failed") ∅
                {| arg_host := gg1; arg_command := lag;
                   arg_credstore := Some EmptyString |}) as (_ & H & _).
    exact (H eq_refl).
  - destruct (exit_status_by_child (refusing 255 "auth failed") ∅
                {| arg_host := gg1; arg_command := info;
                   arg_credstore := None |}) as (_ & _ & H).
    destruct (H eq_refl) as (line & Hline & Hstatus).
    exists line. split; [exact Hline | exact Hstatus].
Defined.

(** C9, as the claim has it, fails: when the output of the remote side
    cannot be decoded, or when the local shell cannot be started, the
    info command ends with exit status one. *)
Lemma exit_status_zero_counterexample :
  exit_status
    (run (garbling "'utf-8' codec can't decode byte 0xff in position 0: invalid start byte")
         ∅ {| arg_host := gg1; arg_command := info; arg_credstore := None |}).1
  = 1
  ∧ exit_status
      (run (not_starting "[Errno 12] Cannot allocate memory") ∅
           {| arg_host := gg1; arg_command := info; arg_credstore := None |}).1
    = 1
  ∧ ¬ (∀ shell environ args, exit_status (run shell environ args).1 = 0).
Proof.
  split; [reflexivity|]. split; [reflexivity|].
  intros Hall.
  specialize (Hall (garbling "undecodable") ∅
                {| arg_host := gg1; arg_command := info; arg_credstore := None |}).
  discriminate Hall.
Qed.

Lemma lines_login_line (alias : string) :
  lines (login_line alias)
  = ("dblogin useridalias " +:+ hd EmptyString (lines alias)) :: tl (lines alias).
Proof. unfold lines, login_line. by apply split_on_prefix. Qed.

Lemma lines_heredoc_commands (alias : string) :
  lines (unlines (heredoc_commands alias))
  = lines (login_line alias) ++ [ "lag"; "info all"; "exit"; "" ].
Proof.
  unfold heredoc_commands, lines. simpl unlines.
  by rewrite split_on_app_sep.
Qed.

Lemma login_line_not_terminator (first : string) :
  "dblogin useridalias " +:+ first ≠ terminator.
Proof. discriminate. Qed.

(** C4, as the code has it.  The alias is copied into the script
    without any check.  In the text of the generated script the
    terminator EOF is a line of the embedded command sequence exactly
    when the alias itself holds a line break followed by a line that
    reads EOF; for an alias without a line break it is not.  This is
    about the text that leaves [get_lag_info], not about what the
    shells around it turn an alias into. *)
Theorem terminator_collision (alias : string) :
  ∃ script,
    temp_script alias = inr script
    ∧ script
      = unlines script_head +:+ unlines (heredoc_commands alias)
          +:+ unlines (terminator :: script_tail)
    ∧ (terminator ∈ lines (unlines (heredoc_commands alias))
       ↔ terminator ∈ tl (lines alias))
    ∧ (has_char newline alias = false →
       terminator ∉ lines (unlines (heredoc_commands alias))).
Proof.
  exists (unlines (script_head ++ heredoc_commands alias
                     ++ [terminator] ++ script_tail)).
  split; [apply temp_script_layout|].
  split; [by rewrite !unlines_app|].
  assert (Hiff : terminator ∈ lines (unlines (heredoc_commands alias))
                 ↔ terminator ∈ tl (lines alias)).
  { rewrite lines_heredoc_commands, lines_login_line.
    rewrite elem_of_app, elem_of_cons. split.
    - intros [[Hfirst | Hrest] | Hfixed]; [|done|].
      + symmetry in Hfirst. by apply login_line_not_terminator in Hfirst.
      + exfalso. revert Hfixed. rewrite !elem_of_cons, elem_of_nil.
        intros [H | [H | [H | [H | H]]]]; by try discriminate H.
    - intros Hrest. left. by right. }
  split; [exact Hiff|].
  intros Halias.
  rewrite Hiff. unfold lines. rewrite (split_on_no_sep _ _ Halias). simpl.
  apply not_elem_of_nil.
Qed.

Lemma terminator_collision_witness :
  terminator ∉ lines (unlines (heredoc_commands "PROD_CRED")).
Proof.
  destruct (terminator_collision "PROD_CRED") as (script & _ & _ & _ & Hplain).
  exact (Hplain eq_refl).
Defined.

(** C4, as the claim has it, fails: with the two-line alias made of X
    and EOF the terminator is one of the lines of the embedded command
    sequence, and the here-document ends right after the login line. *)
Lemma terminator_collision_counterexample :
  ¬ (∀ alias, terminator ∉ lines (unlines (heredoc_commands alias)))
  ∧ terminator ∈ lines (unlines (heredoc_commands ("X" +:+ String newline "EOF")))
  ∧ ∃ script,
      temp_script ("X" +:+ String newline "EOF") = inr script
      ∧ heredoc_content script = [ "dblogin useridalias X" ].
Proof.
  assert (Hin : terminator
                ∈ lines (unlines (heredoc_commands ("X" +:+ String newline "EOF")))).
  { vm_compute. right. left. }
  split; [|split; [exact Hin|]].
  - intros Hall. exact (Hall _ Hin).
  - eexists. split; [apply temp_script_layout|]. vm_compute. reflexivity.
Qed.

(** ** Quoting of the one-line commands *)

Lemma strip_prefix_app (p s : string) : strip_prefix p (p +:+ s) = Some s.
Proof.
  induction p as [|c p IH]; [done|].
  rewrite append_cons. simpl. by rewrite Ascii.eqb_refl.
Qed.

Lemma single_quoted_app (body rest : string) :
  has_char squote body = false →
  single_quoted (body +:+ String squote rest) = Some (body, rest).
Proof.
  induction body as [|c body IH]; intros Hbody; [done|].
  simpl in Hbody. apply orb_false_iff in Hbody as [Hc Hbody].
  rewrite append_cons. simpl. by rewrite Hc, (IH Hbody).
Qed.

Lemma has_char_split (c : ascii) (s : string) :
  has_char c s = true →
  ∃ before after, s = before +:+ String c after ∧ has_char c before = false.
Proof.
  induction s as [|d s IH]; [done|]. simpl.
  destruct (Ascii.eqb_spec d c) as [->|Hd].
  - intros _. by exists EmptyString, s.
  - simpl. intros Hs. destruct (IH Hs) as (before & after & -> & Hbefore).
    exists (String d before), after. split; [done|]. simpl.
    destruct (Ascii.eqb_spec d c); [done|]. by rewrite Hbefore.
Qed.

Lemma escape_app (s t : string) : escape (s +:+ t) = escape s +:+ escape t.
Proof. apply replace_app. Qed.

Lemma escape_other (c : ascii) (s : string) :
  c ≠ dquote → escape (String c s) = String c (escape s).
Proof.
  intros Hc. unfold escape. simpl.
  by destruct (Ascii.eqb_spec c dquote).
Qed.

Lemma escape_dquote (s : string) :
  escape (String dquote s) = String backslash (String dquote (escape s)).
Proof. reflexivity. Qed.

Lemma escape_no_dquote (s : string) :
  has_char dquote s = false → escape s = s.
Proof.
  induction s as [|c s IH]; [done|]. simpl.
  intros H. apply orb_false_iff in H as [Hc Hs].
  apply Ascii.eqb_neq in Hc. by rewrite (escape_other _ _ Hc), (IH Hs).
Qed.

Lemma has_char_escape (c : ascii) (s : string) :
  c ≠ dquote → c ≠ backslash →
  has_char c (escape s) = has_char c s.
Proof.
  intros Hq Hb. induction s as [|d s IH]; [done|].
  destruct (Ascii.eqb_spec d dquote) as [->|Hd].
  - rewrite escape_dquote, !has_char_cons, IH.
    apply not_eq_sym, Ascii.eqb_neq in Hq, Hb. by rewrite Hq, Hb.
  - by rewrite (escape_other _ _ Hd), !has_char_cons, IH.
Qed.

Lemma echo_argument_gg_script (command : string) :
  has_char squote command = false →
  echo_argument (gg_script command) = Some (command, " | ggsci").
Proof.
  intros Hcommand. unfold echo_argument, gg_script.
  rewrite strip_prefix_app. simpl. by apply single_quoted_app.
Qed.

Lemma echo_argument_cut (before after : string) :
  has_char squote before = false →
  echo_argument (gg_script (before +:+ String squote after))
  = Some (before, after +:+ "' | ggsci").
Proof.
  intros Hbefore. unfold echo_argument, gg_script.
  rewrite strip_prefix_app. simpl.
  rewrite append_assoc, append_cons. by apply single_quoted_app.
Qed.


Lemma squote_not_dquote : squote ≠ dquote.
Proof. discriminate. Qed.

Lemma squote_not_backslash : squote ≠ backslash.
Proof. discriminate. Qed.

Lemma ssh_command_layout (host command : string) :
  ssh_command host command
  = ("ssh -tt pulseuser@" +:+ host +:+ " 'sudo su - ggudb -c "
       +:+ String dquote EmptyString)
    +:+ (command +:+ String dquote "'").
Proof.
  unfold ssh_command. rewrite !append_assoc. do 2 f_equal.
Qed.





(** C6.  For the two intents other than show-lag the command handed to
    the remote session is the fixed line piping the literal console
    command into ggsci.  Each of the two lines is a single line and
    holds no double quote at all, hence none that is not escaped. *)
Theorem literal_intents_single_line shell environ (host : string) :
  (get_info_all shell environ host
   = run_ssh_command shell environ host "echo 'info all' | ggsci"
   ∧ lines "echo 'info all' | ggsci" = [ "echo 'info all' | ggsci" ]
   ∧ has_char dquote "echo 'info all' | ggsci" = false
   ∧ dquotes_backslashed "echo 'info all' | ggsci" = true)
  ∧ (get_info_credentialstore shell environ host
     = run_ssh_command shell environ host "echo 'info credentialstore' | ggsci"
     ∧ lines "echo 'info credentialstore' | ggsci"
       = [ "echo 'info credentialstore' | ggsci" ]
     ∧ has_char dquote "echo 'info credentialstore' | ggsci" = false
     ∧ dquotes_backslashed "echo 'info credentialstore' | ggsci" = true).
Proof. by repeat split. Qed.

(** C10.  [run_ggsci_command] escapes double quotes only: a command
    without double quote is embedded as it is, and a single quote of
    the command is copied into the single-quoted argument of [echo]
    unchanged.  The argument of [echo] then ends at that quote, in the
    middle of the command, and is no longer the whole command. *)
Theorem single_quote_not_escaped (command : string) :
  (has_char dquote command = false → escape command = command)
  ∧ (has_char squote command = true →
     ∃ before after,
       command = before +:+ String squote after
       ∧ has_char squote before = false
       ∧ gg_script (escape command)
         = "echo '" +:+ escape before
             +:+ String squote (escape after +:+ "' | ggsci")
       ∧ echo_argument (gg_script (escape command))
         = Some (escape before, escape after +:+ "' | ggsci")
       ∧ echo_argument (gg_script (escape command))
         ≠ Some (escape command, " | ggsci")).
Proof.
  split; [apply escape_no_dquote|].
  intros Hcommand.
  destruct (has_char_split _ _ Hcommand) as (before & after & -> & Hbefore).
  exists before, after.
  assert (Hesc : escape (before +:+ String squote after)
                 = escape before +:+ String squote (escape after)).
  { by rewrite escape_app, (escape_other _ _ squote_not_dquote). }
  assert (Hcut : echo_argument (gg_script (escape (before +:+ String squote after)))
                 = Some (escape before, escape after +:+ "' | ggsci")).
  { rewrite Hesc. apply echo_argument_cut.
    rewrite has_char_escape; [done|apply squote_not_dquote|apply squote_not_backslash]. }
  split; [done|]. split; [done|]. split; [|split; [exact Hcut|]].
  - unfold gg_script. by rewrite Hesc, !append_assoc.
  - rewrite Hcut, Hesc. intros Heq. injection Heq as Hbody _.
    rewrite <- (append_nil_r (escape before)) in Hbody at 1.
    apply (inj (String.app (escape before))) in Hbody. discriminate Hbody.
Qed.

Lemma single_quote_not_escaped_witness :
  escape "info all" = "info all"
  ∧ ∃ before after,
      "it's" = before +:+ String squote after
      ∧ echo_argument (gg_script (escape "it's"))
        = Some (escape before, escape after +:+ "' | ggsci").
Proof.
  destruct (single_quote_not_escaped "info all") as [Hplain _].
  destruct (single_quote_not_escaped "it's") as [_ Hquote].
  split; [exact (Hplain eq_refl)|].
  destruct (Hquote eq_refl) as (before & after & Hsplit & _ & _ & Hcut & _).
  exists before, after. by split.
Defined.

(** ** Further properties of gg_status.py *)

Lemma string_length_app (s t : string) :
  String.length (s +:+ t) = (String.length s + String.length t)%nat.
Proof. induction s as [|c s IH]; [done|]. rewrite append_cons. simpl. by rewrite IH. Qed.

Lemma append_cancel_r (s s' t : string) : s +:+ t = s' +:+ t → s = s'.
Proof.
  revert s'. induction s as [|c s IH]; intros [|c' s'] Heq.
  - done.
  - apply (f_equal String.length) in Heq.
    rewrite append_nil_l, append_cons in Heq. simpl in Heq.
    rewrite string_length_app in Heq. lia.
  - apply (f_equal String.length) in Heq.
    rewrite append_nil_l, append_cons in Heq. simpl in Heq.
    rewrite string_length_app in Heq. lia.
  - rewrite !append_cons in Heq. injection Heq as -> Heq.
    by rewrite (IH _ Heq).
Qed.

Lemma escape_head (s t : string) : escape s ≠ String dquote t.
Proof.
  destruct s as [|c s]; [done|].
  destruct (Ascii.eqb_spec c dquote) as [->|Hc].
  - rewrite escape_dquote. discriminate.
  - rewrite (escape_other _ _ Hc). congruence.
Qed.

Lemma escape_inj (a b : string) : escape a = escape b → a = b.
Proof.
  revert b. induction a as [|c a IH]; intros [|d b] Heq.
  - done.
  - destruct (Ascii.eqb_spec d dquote) as [->|Hd].
    + by rewrite escape_dquote in Heq.
    + by rewrite (escape_other _ _ Hd) in Heq.
  - destruct (Ascii.eqb_spec c dquote) as [->|Hc].
    + by rewrite escape_dquote in Heq.
    + by rewrite (escape_other _ _ Hc) in Heq.
  - destruct (Ascii.eqb_spec c dquote) as [->|Hc];
      destruct (Ascii.eqb_spec d dquote) as [->|Hd].
    + rewrite !escape_dquote in Heq. injection Heq as Heq.
      by rewrite (IH _ Heq).
    + rewrite escape_dquote, (escape_other _ _ Hd) in Heq.
      injection Heq as _ Heq. symmetry in Heq. by apply escape_head in Heq.
    + rewrite escape_dquote, (escape_other _ _ Hc) in Heq.
      injection Heq as _ Heq. by apply escape_head in Heq.
    + rewrite (escape_other _ _ Hc), (escape_other _ _ Hd) in Heq.
      injection Heq as -> Heq. by rewrite (IH _ Heq).
Qed.


(** X2.  An empty alias counts as no alias: [--command lag] with
    [--credstore ''] prints the message about the missing alias and
    opens no session, whatever the host. *)
Theorem empty_alias_is_missing shell environ (h : host_choice) :
  run shell environ
      {| arg_host := h; arg_command := lag; arg_credstore := Some EmptyString |}
  = (inr tt,
     {| launched := [];
        printed := "Error: --credstore is required for lag command"
                     +:+ String newline EmptyString |}).
Proof. reflexivity. Qed.

(** X3.  For the info and credstore commands the alias plays no part:
    two runs that differ only in [--credstore] do the same. *)
Theorem credstore_ignored_unless_lag shell environ (h : host_choice)
    (c : command_choice) (o o' : option string) :
  c ≠ lag →
  run shell environ {| arg_host := h; arg_command := c; arg_credstore := o |}
  = run shell environ {| arg_host := h; arg_command := c; arg_credstore := o' |}.
Proof. by destruct c. Qed.

Lemma credstore_ignored_unless_lag_witness :
  run (answering "ok") ∅
      {| arg_host := gg1; arg_command := info; arg_credstore := Some "PROD_CRED" |}
  = run (answering "ok") ∅
      {| arg_host := gg1; arg_command := info; arg_credstore := None |}.
Proof.
  apply (credstore_ignored_unless_lag (answering "ok") ∅ gg1 info
           (Some "PROD_CRED") None).
  discriminate.
Defined.



(** X5.  A failed session cannot be told from a successful one whose
    output happens to read like the error text: a remote side that fails
    with message [msg] on standard error and one that succeeds and
    prints the error prefix followed by [msg] lead to the same run. *)
Theorem error_text_looks_like_output environ (args : Namespace)
    (status : Z) (msg : string) :
  status ≠ 0 →
  run (refusing status msg) environ args
  = run (answering ("Error executing command: " +:+ msg)) environ args.
Proof.
  intros Hstatus.
  assert (Hssh : ∀ h c w,
            run_ssh_command (refusing status msg) environ h c w
            = run_ssh_command
                (answering ("Error executing command: " +:+ msg)) environ h c w).
  { intros h c w. rewrite !run_ssh_command_outcome.
    unfold communicate, refusing, answering. simpl.
    apply Z.eqb_neq in Hstatus. by rewrite Hstatus. }
  destruct args as [h c o]. unfold run, main. simpl.
  set (addr := resolve_host environ h).
  destruct c.
  - unfold get_info_all, run_ggsci_command, mbind, M_bind. by rewrite Hssh.
  - unfold get_info_credentialstore, run_ggsci_command, mbind, M_bind.
    by rewrite Hssh.
  - destruct o as [alias|]; [|done]. destruct (Py.truthy alias); [|done].
    simpl. rewrite !get_lag_info_script. unfold mbind, M_bind. by rewrite Hssh.
Qed.

Lemma error_text_looks_like_output_witness :
  run (refusing 255 "auth failed") ∅
      {| arg_host := gg1; arg_command := info; arg_credstore := None |}
  = run (answering "Error executing command: auth failed") ∅
      {| arg_host := gg1; arg_command := info; arg_credstore := None |}.
Proof.
  apply (error_text_looks_like_output ∅
           {| arg_host := gg1; arg_command := info; arg_credstore := None |}
           255 "auth failed").
  discriminate.
Defined.

(** X6.  The command line a run launches depends on one variable of
    the environment only, the override of the selected host: two
    environments that agree on it lead to the same command line.  (The
    child itself inherits the whole environment.) *)
Theorem only_host_variable_read shell (environ environ' : gmap string string)
    (args : Namespace) :
  environ !! host_variable (arg_host args)
  = environ' !! host_variable (arg_host args) →
  launched (run shell environ args).2 = launched (run shell environ' args).2.
Proof.
  intros Henv.
  assert (Haddr : resolve_host environ (arg_host args)
                  = resolve_host environ' (arg_host args)).
  { unfold resolve_host, getenv. destruct (arg_host args); simpl in Henv;
      by rewrite Henv. }
  assert (Hlaunched : ∀ env addr script,
    launched ((result ← run_ssh_command shell env addr script; print result) fresh).2
    = [ssh_command addr script]).
  { intros env addr script. unfold mbind, M_bind.
    rewrite run_ssh_command_outcome.
    by destruct (communicate shell env (ssh_command addr script)). }
  destruct args as [h c o]. unfold run, main. simpl in *.
  destruct c.
  - unfold get_info_all, run_ggsci_command. by rewrite !Hlaunched, Haddr.
  - unfold get_info_credentialstore, run_ggsci_command.
    by rewrite !Hlaunched, Haddr.
  - destruct o as [alias|]; [|done]. destruct (Py.truthy alias); [|done].
    simpl. rewrite !get_lag_info_script. by rewrite !Hlaunched, Haddr.
Qed.

Lemma only_host_variable_read_witness :
  launched
    (run (answering "ok") {[ "GG2_HOST" := "10.1.2.3" ]}
         {| arg_host := gg1; arg_command := info; arg_credstore := None |}).2
  = launched
      (run (answering "ok") ∅
           {| arg_host := gg1; arg_command := info; arg_credstore := None |}).2.
Proof.
  apply (only_host_variable_read (answering "ok")
           {[ "GG2_HOST" := "10.1.2.3" ]} ∅
           {| arg_host := gg1; arg_command := info; arg_credstore := None |}).
  reflexivity.
Defined.

(** X7.  The command line of [run_ggsci_command] determines the console
    command: for a given host, two commands that lead to the same line
    are the same command. *)
Theorem command_line_determines_command (host a b : string) :
  ssh_command host (gg_script (escape a)) = ssh_command host (gg_script (escape b)) →
  a = b.
Proof.
  rewrite !ssh_command_layout. intros Heq.
  apply (inj (String.app _)) in Heq.
  apply append_cancel_r in Heq. unfold gg_script in Heq.
  apply (inj (String.app _)) in Heq.
  apply append_cancel_r in Heq. by apply escape_inj.
Qed.

Lemma command_line_determines_command_witness : "info all" = "info all".
Proof.
  apply (command_line_determines_command "testdb-ho-03.com" "info all" "info all").
  reflexivity.
Defined.

(** ** Properties of tablespace.py and fra.py *)

Lemma ljust_length (width : nat) (s : string) :
  String.length (Reports.ljust width s) = (width `max` String.length s)%nat.
Proof.
  unfold Reports.ljust. rewrite string_length_app.
  assert (Hmul : ∀ n, String.length (Reports.str_mul " " n) = n).
  { induction n as [|n IH]; [done|].
    change (Reports.str_mul " " (S n)) with (" " +:+ Reports.str_mul " " n).
    by rewrite string_length_app, IH. }
  rewrite Hmul. lia.
Qed.

Section ReportFacts.

Variable number : Type.
Variable fixed2 : number → string.
Variable expanduser : string → string.
Variable environ : gmap string string.

Ltac step_report :=
  unfold Reports.try_except_Exception, Reports.cx_connect,
    Reports.cx_init_oracle_client, Reports.cursor_execute,
    Reports.cursor_fetchall, Reports.call, Reports.lift, Reports.print,
    Reports.sys_exit, mbind, Reports.R_bind, mret, Reports.R_ret;
  simpl.


Lemma tablespace_line_outcome (row : Reports.tablespace_row number) :
  if Reports.tablespace_row_filled number row
  then ∃ line, Reports.tablespace_line number fixed2 row = inr line
  else Reports.tablespace_line number fixed2 row
       = inl (Reports.TypeError Reports.none_format).
Proof. destruct row as [[[[name|] [a|]] [b|]] [c|]]; simpl; by eauto. Qed.

Lemma tablespace_lines_outcome (rows : list (Reports.tablespace_row number))
    (output : string) :
  if forallb (Reports.tablespace_row_filled number) rows
  then ∃ text, Reports.tablespace_lines number fixed2 output rows = inr text
  else Reports.tablespace_lines number fixed2 output rows
       = inl (Reports.TypeError Reports.none_format).
Proof.
  revert output. induction rows as [|row rows IH]; intros output; simpl.
  - by eauto.
  - pose proof (tablespace_line_outcome row) as Hrow.
    destruct (Reports.tablespace_row_filled number row); simpl.
    + destruct Hrow as [line ->]. apply IH.
    + by rewrite Hrow.
Qed.


Lemma fra_line_outcome (row : Reports.fra_row number) :
  if Reports.fra_row_filled number row
  then ∃ line, Reports.fra_line number fixed2 row = inr line
  else Reports.fra_line number fixed2 row
       = inl (Reports.TypeError Reports.none_format).
Proof. destruct row as [[[[[name|] [a|]] [b|]] [c|]] [d|]]; simpl; by eauto. Qed.

Lemma fra_lines_outcome (rows : list (Reports.fra_row number)) (output : string) :
  if forallb (Reports.fra_row_filled number) rows
  then ∃ text, Reports.fra_lines number fixed2 output rows = inr text
  else Reports.fra_lines number fixed2 output rows
       = inl (Reports.TypeError Reports.none_format).
Proof.
  revert output. induction rows as [|row rows IH]; intros output; simpl.
  - by eauto.
  - pose proof (fra_line_outcome row) as Hrow.
    destruct (Reports.fra_row_filled number row); simpl.
    + destruct Hrow as [line ->]. apply IH.
    + by rewrite Hrow.
Qed.

(** [get_tablespace_usage] never raises and prints nothing: whatever the
    driver does, a string comes back. *)
Lemma get_tablespace_usage_returns (driver : Reports.Driver (Reports.tablespace_row number))
    (username password dsn db_name : option string) (w : Reports.World) :
  ∃ text w',
    Reports.get_tablespace_usage number fixed2 driver username password dsn db_name w
    = (inr text, w')
    ∧ Reports.printed w' = Reports.printed w
    ∧ ∃ more, Reports.calls w'
              = Reports.calls w ++ Reports.connect username password dsn :: more.
Proof.
  unfold Reports.get_tablespace_usage. step_report.
  destruct (Reports.connect_result driver username password dsn); simpl;
    [by eauto 10|].
  destruct (Reports.execute_result driver Reports.tablespace_query) as [msg|rows];
    simpl; [rewrite <- !app_assoc; by eauto 10|].
  pose proof (tablespace_lines_outcome rows (Reports.tablespace_header db_name))
    as Hrows.
  destruct (forallb _ rows).
  - destruct Hrows as [text ->]. simpl. rewrite <- !app_assoc. by eauto 10.
  - rewrite Hrows. simpl. rewrite <- !app_assoc. by eauto 10.
Qed.

Lemma get_fra_usage_returns (driver : Reports.Driver (Reports.fra_row number))
    (username password dsn db_name : option string) (w : Reports.World) :
  ∃ text w',
    Reports.get_fra_usage number fixed2 driver username password dsn db_name w
    = (inr text, w')
    ∧ Reports.printed w' = Reports.printed w
    ∧ ∃ more, Reports.calls w'
              = Reports.calls w ++ Reports.connect username password dsn :: more.
Proof.
  unfold Reports.get_fra_usage. step_report.
  destruct (Reports.connect_result driver username password dsn); simpl;
    [by eauto 10|].
  destruct (Reports.execute_result driver Reports.fra_query) as [msg|rows];
    simpl; [rewrite <- !app_assoc; by eauto 10|].
  pose proof (fra_lines_outcome rows (Reports.fra_header db_name)) as Hrows.
  destruct (forallb _ rows).
  - destruct Hrows as [text ->]. simpl. rewrite <- !app_assoc. by eauto 10.
  - rewrite Hrows. simpl. rewrite <- !app_assoc. by eauto 10.
Qed.

(** X10.  A database failure in [get_tablespace_usage] comes back as
    text, the fixed prefix followed by the driver's message.  When the
    connection cannot be opened nothing else is attempted; when the
    query fails the connection that was opened is never closed. *)
Theorem tablespace_database_errors
    (driver : Reports.Driver (Reports.tablespace_row number))
    (username password dsn db_name : option string) (w : Reports.World)
    (msg : string) :
  (Reports.connect_result driver username password dsn = Some msg →
   Reports.get_tablespace_usage number fixed2 driver username password dsn db_name w
   = (inr ("Error retrieving tablespace information: " +:+ msg),
      {| Reports.calls :=
           Reports.calls w ++ [ Reports.connect username password dsn ];
         Reports.printed := Reports.printed w |}))
  ∧ (Reports.connect_result driver username password dsn = None →
     Reports.execute_result driver Reports.tablespace_query = inl msg →
     Reports.get_tablespace_usage number fixed2 driver username password dsn db_name w
     = (inr ("Error retrieving tablespace information: " +:+ msg),
        {| Reports.calls :=
             Reports.calls w
               ++ [ Reports.connect username password dsn; Reports.open_cursor;
                    Reports.execute Reports.tablespace_query ];
           Reports.printed := Reports.printed w |})).
Proof.
  split.
  - intros Hconnect. unfold Reports.get_tablespace_usage. step_report.
    by rewrite Hconnect.
  - intros Hconnect Hexecute. unfold Reports.get_tablespace_usage. step_report.
    rewrite Hconnect. simpl. rewrite Hexecute. simpl. by rewrite <- !app_assoc.
Qed.

(** X11.  One NULL cell anywhere in the fetched rows turns the whole
    tablespace report into the error text built from Python's message
    for formatting [None]; the rows rendered before it are lost, and
    neither the cursor nor the connection is closed. *)
Theorem tablespace_null_cell
    (driver : Reports.Driver (Reports.tablespace_row number))
    (username password dsn db_name : option string) (w : Reports.World)
    (rows : list (Reports.tablespace_row number)) :
  Reports.connect_result driver username password dsn = None →
  Reports.execute_result driver Reports.tablespace_query = inr rows →
  forallb (Reports.tablespace_row_filled number) rows = false →
  Reports.get_tablespace_usage number fixed2 driver username password dsn db_name w
  = (inr ("Error retrieving tablespace information: "
            +:+ "unsupported format string passed to NoneType.__format__"),
     {| Reports.calls :=
          Reports.calls w
            ++ [ Reports.connect username password dsn; Reports.open_cursor;
                 Reports.execute Reports.tablespace_query; Reports.fetchall ];
        Reports.printed := Reports.printed w |}).
Proof.
  intros Hconnect Hexecute Hrows.
  unfold Reports.get_tablespace_usage. step_report.
  rewrite Hconnect. simpl. rewrite Hexecute. simpl.
  pose proof (tablespace_lines_outcome rows (Reports.tablespace_header db_name))
    as Hlines.
  rewrite Hrows in Hlines. rewrite Hlines. simpl. by rewrite <- !app_assoc.
Qed.


(** X13.  A row of the tablespace report is never cut: the line starts
    with the whole name, each column takes its width or the length of
    its text, whichever is larger, and the line with its three
    separating spaces and its newline is as long as the sum of these. *)
Theorem tablespace_line_width (name : string) (used_mb free_mb used_percent : number) :
  Reports.tablespace_line number fixed2
    (Reports.tablespace_cells number (name, used_mb, free_mb, used_percent))
  = inr (Reports.tablespace_text number fixed2 (name, used_mb, free_mb, used_percent))
  ∧ (∃ rest,
       Reports.tablespace_text number fixed2 (name, used_mb, free_mb, used_percent)
       = name +:+ rest)
  ∧ String.length
      (Reports.tablespace_text number fixed2 (name, used_mb, free_mb, used_percent))
    = ((30 `max` String.length name)
       + (15 `max` String.length (fixed2 used_mb))
       + (15 `max` String.length (fixed2 free_mb))
       + (10 `max` String.length (fixed2 used_percent)) + 4)%nat.
Proof.
  split; [done|]. split.
  - unfold Reports.tablespace_text, Reports.ljust at 1.
    rewrite append_assoc. by eexists.
  - unfold Reports.tablespace_text.
    rewrite !string_length_app, !ljust_length. simpl. lia.
Qed.

(** X14.  The tablespace script ends with status 1 only when the Oracle
    client library cannot be loaded; it then prints that error and makes
    no call on the database.  Once the library is loaded the script
    prints one text and ends with status 0, whatever the database does. *)
Theorem tablespace_exit_status
    (driver : Reports.Driver (Reports.tablespace_row number))
    (db : Reports.db_choice) :
  (∀ msg,
     Reports.init_result driver (Reports.client_path expanduser) = Some msg →
     Reports.tablespace_script number fixed2 expanduser environ driver db
       Reports.fresh
     = (inl (Reports.SystemExit 1),
        {| Reports.calls :=
             [ Reports.init_oracle_client (Reports.client_path expanduser) ];
           Reports.printed := "Error initializing Oracle client: " +:+ msg
                                +:+ String newline EmptyString |}))
  ∧ (Reports.init_result driver (Reports.client_path expanduser) = None →
     Reports.exit_status
       (Reports.tablespace_script number fixed2 expanduser environ driver db
          Reports.fresh).1 = 0
     ∧ ∃ report,
         Reports.printed
           (Reports.tablespace_script number fixed2 expanduser environ driver db
              Reports.fresh).2
         = report +:+ String newline EmptyString).
Proof.
  split.
  - intros msg Hinit. unfold Reports.tablespace_script, Reports.init_client.
    step_report. by rewrite Hinit.
  - intros Hinit. unfold Reports.tablespace_script, Reports.init_client.
    step_report. rewrite Hinit. simpl.
    destruct (Reports.connection_details environ db) as [[[u p] d] n].
    match goal with
    | |- context [Reports.get_tablespace_usage _ _ _ _ _ _ _ ?w0] =>
        destruct (get_tablespace_usage_returns driver u p d n w0)
          as (text & w' & -> & Hprinted & _)
    end.
    simpl in *. rewrite Hprinted. split; [done|]. by exists text.
Qed.

(** X15.  Once the client library is loaded, the first call of the
    tablespace script on the database is [connect] with the user,
    password and DSN variables of the selected database; a variable
    that is not set is passed as [None], it is not replaced and not
    rejected. *)
Theorem tablespace_connection_details
    (driver : Reports.Driver (Reports.tablespace_row number))
    (db : Reports.db_choice) :
  Reports.init_result driver (Reports.client_path expanduser) = None →
  ∃ more,
    Reports.calls
      (Reports.tablespace_script number fixed2 expanduser environ driver db
         Reports.fresh).2
    = Reports.init_oracle_client (Reports.client_path expanduser)
      :: match db with
         | Reports.db1 =>
             Reports.connect (environ !! "DB1_USER") (environ !! "DB1_PASSWORD")
               (environ !! "DB1_DSN")
         | Reports.db2 =>
             Reports.connect (environ !! "DB2_USER") (environ !! "DB2_PASSWORD")
               (environ !! "DB2_DSN")
         end
      :: more.
Proof.
  intros Hinit. unfold Reports.tablespace_script, Reports.init_client.
  step_report. rewrite Hinit. simpl.
  destruct db; simpl;
    match goal with
    | |- context [Reports.get_tablespace_usage _ _ _ ?u ?p ?d ?n ?w0] =>
        destruct (get_tablespace_usage_returns driver u p d n w0)
          as (text & w' & -> & _ & more & Hcalls)
    end; simpl in *; rewrite Hcalls; by exists more.
Qed.

(** X16.  A database failure in [get_fra_usage] comes back as text, the
    fixed prefix followed by the driver's message; after a failed query
    the opened connection is never closed. *)
Theorem fra_database_errors (driver : Reports.Driver (Reports.fra_row number))
    (username password dsn db_name : option string) (w : Reports.World)
    (msg : string) :
  (Reports.connect_result driver username password dsn = Some msg →
   Reports.get_fra_usage number fixed2 driver username password dsn db_name w
   = (inr ("Error retrieving FRA information: " +:+ msg),
      {| Reports.calls :=
           Reports.calls w ++ [ Reports.connect username password dsn ];
         Reports.printed := Reports.printed w |}))
  ∧ (Reports.connect_result driver username password dsn = None →
     Reports.execute_result driver Reports.fra_query = inl msg →
     Reports.get_fra_usage number fixed2 driver username password dsn db_name w
     = (inr ("Error retrieving FRA information: " +:+ msg),
        {| Reports.calls :=
             Reports.calls w
               ++ [ Reports.connect username password dsn; Reports.open_cursor;
                    Reports.execute Reports.fra_query ];
           Reports.printed := Reports.printed w |})).
Proof.
  split.
  - intros Hconnect. unfold Reports.get_fra_usage. step_report.
    by rewrite Hconnect.
  - intros Hconnect Hexecute. unfold Reports.get_fra_usage. step_report.
    rewrite Hconnect. simpl. rewrite Hexecute. simpl. by rewrite <- !app_assoc.
Qed.

(** X17.  One NULL cell anywhere in the fetched rows, the name of the
    recovery area included, turns the whole recovery-area report into
    the error text; cursor and connection stay open. *)
Theorem fra_null_cell (driver : Reports.Driver (Reports.fra_row number))
    (username password dsn db_name : option string) (w : Reports.World)
    (rows : list (Reports.fra_row number)) :
  Reports.connect_result driver username password dsn = None →
  Reports.execute_result driver Reports.fra_query = inr rows →
  forallb (Reports.fra_row_filled number) rows = false →
  Reports.get_fra_usage number fixed2 driver username password dsn db_name w
  = (inr ("Error retrieving FRA information: "
            +:+ "unsupported format string passed to NoneType.__format__"),
     {| Reports.calls :=
          Reports.calls w
            ++ [ Reports.connect username password dsn; Reports.open_cursor;
                 Reports.execute Reports.fra_query; Reports.fetchall ];
        Reports.printed := Reports.printed w |}).
Proof.
  intros Hconnect Hexecute Hrows.
  unfold Reports.get_fra_usage. step_report.
  rewrite Hconnect. simpl. rewrite Hexecute. simpl.
  pose proof (fra_lines_outcome rows (Reports.fra_header db_name)) as Hlines.
  rewrite Hrows in Hlines. rewrite Hlines. simpl. by rewrite <- !app_assoc.
Qed.


(** X19.  The recovery-area script ends with status 1 only when the
    Oracle client library cannot be loaded, after printing that error
    and without touching the database; otherwise it prints one text and
    ends with status 0, whatever the database does. *)
Theorem fra_exit_status (driver : Reports.Driver (Reports.fra_row number))
    (db : Reports.db_choice) :
  (∀ msg,
     Reports.init_result driver (Reports.client_path expanduser) = Some msg →
     Reports.fra_script number fixed2 expanduser environ driver db Reports.fresh
     = (inl (Reports.SystemExit 1),
        {| Reports.calls :=
             [ Reports.init_oracle_client (Reports.client_path expanduser) ];
           Reports.printed := "Error initializing Oracle client: " +:+ msg
                                +:+ String newline EmptyString |}))
  ∧ (Reports.init_result driver (Reports.client_path expanduser) = None →
     Reports.exit_status
       (Reports.fra_script number fixed2 expanduser environ driver db
          Reports.fresh).1 = 0
     ∧ ∃ report,
         Reports.printed
           (Reports.fra_script number fixed2 expanduser environ driver db
              Reports.fresh).2
         = report +:+ String newline EmptyString).
Proof.
  split.
  - intros msg Hinit. unfold Reports.fra_script, Reports.init_client.
    step_report. by rewrite Hinit.
  - intros Hinit. unfold Reports.fra_script, Reports.init_client.
    step_report. rewrite Hinit. simpl.
    destruct (Reports.connection_details environ db) as [[[u p] d] n].
    match goal with
    | |- context [Reports.get_fra_usage _ _ _ _ _ _ _ ?w0] =>
        destruct (get_fra_usage_returns driver u p d n w0)
          as (text & w' & -> & Hprinted & _)
    end.
    simpl in *. rewrite Hprinted. split; [done|]. by exists text.
Qed.

End ReportFacts.

(** *** Runs of the report functions on sample drivers *)

Lemma tablespace_database_errors_witness :
  (Reports.get_tablespace_usage string id
     (Reports.sample_driver None (Some "ORA-12541: TNS:no listener") (inr []))
     (Some "monitor") (Some "secret") (Some "db-ho-01/ORCL") (Some "PROD")
     Reports.fresh).1
  = inr "Error retrieving tablespace information: ORA-12541: TNS:no listener"
  ∧ (Reports.get_tablespace_usage string id
       (Reports.sample_driver None None (inl "ORA-00942: table or view does not exist"))
       (Some "monitor") (Some "secret") (Some "db-ho-01/ORCL") (Some "PROD")
       Reports.fresh).1
    = inr "Error retrieving tablespace information: ORA-00942: table or view does not exist".
Proof.
  split.
  - destruct (tablespace_database_errors string id
                (Reports.sample_driver None (Some "ORA-12541: TNS:no listener") (inr []))
                (Some "monitor") (Some "secret") (Some "db-ho-01/ORCL") (Some "PROD")
                Reports.fresh "ORA-12541: TNS:no listener") as [H _].
    by rewrite (H eq_refl).
  - destruct (tablespace_database_errors string id
                (Reports.sample_driver None None
                   (inl "ORA-00942: table or view does not exist"))
                (Some "monitor") (Some "secret") (Some "db-ho-01/ORCL") (Some "PROD")
                Reports.fresh "ORA-00942: table or view does not exist") as [_ H].
    by rewrite (H eq_refl eq_refl).
Defined.

Lemma tablespace_null_cell_witness :
  (Reports.get_tablespace_usage string id
     (Reports.sample_driver None None
        (inr [ (Some "SYSTEM", Some "512.00", Some "128.00", Some "80.00");
               (Some "TEMP", Some "0.00", Some "64.00", None) ]))
     None None None None Reports.fresh).1
  = inr ("Error retrieving tablespace information: "
           +:+ "unsupported format string passed to NoneType.__format__").
Proof.
  by rewrite (tablespace_null_cell string id
                (Reports.sample_driver None None
                   (inr [ (Some "SYSTEM", Some "512.00", Some "128.00", Some "80.00");
                          (Some "TEMP", Some "0.00", Some "64.00", None) ]))
                None None None None Reports.fresh _ eq_refl eq_refl eq_refl).
Defined.


Lemma tablespace_exit_status_witness :
  Reports.exit_status
    (Reports.tablespace_script string id id ∅
       (Reports.sample_driver (Some "DPI-1047: cannot locate a 64-bit Oracle Client library")
          None (inr []))
       Reports.db1 Reports.fresh).1 = 1
  ∧ Reports.exit_status
      (Reports.tablespace_script string id id ∅
         (Reports.sample_driver None (Some "ORA-12541: TNS:no listener") (inr []))
         Reports.db1 Reports.fresh).1 = 0.
Proof.
  split.
  - destruct (tablespace_exit_status string id id ∅
                (Reports.sample_driver
                   (Some "DPI-1047: cannot locate a 64-bit Oracle Client library")
                   None (inr []))
                Reports.db1) as [H _].
    by rewrite (H _ eq_refl).
  - destruct (tablespace_exit_status string id id ∅
                (Reports.sample_driver None (Some "ORA-12541: TNS:no listener") (inr []))
                Reports.db1) as [_ H].
    exact (proj1 (H eq_refl)).
Defined.

Lemma tablespace_connection_details_witness :
  ∃ more,
    Reports.calls
      (Reports.tablespace_script string id id
         {[ "DB2_USER" := "monitor" ]}
         (Reports.sample_driver None (Some "ORA-01017: invalid username/password")
            (inr []))
         Reports.db2 Reports.fresh).2
    = Reports.init_oracle_client "~/oracle/instantclient_21_19"
      :: Reports.connect (Some "monitor") None None :: more.
Proof.
  destruct (tablespace_connection_details string id id
              {[ "DB2_USER" := "monitor" ]}
              (Reports.sample_driver None (Some "ORA-01017: invalid username/password")
                 (inr []))
              Reports.db2 eq_refl) as [more Hmore].
  exists more. rewrite Hmore. reflexivity.
Defined.

Lemma fra_database_errors_witness :
  (Reports.get_fra_usage string id
     (Reports.sample_driver None (Some "ORA-12541: TNS:no listener") (inr []))
     (Some "monitor") (Some "secret") (Some "db-ho-01/ORCL") (Some "PROD")
     Reports.fresh).1
  = inr "Error retrieving FRA information: ORA-12541: TNS:no listener"
  ∧ (Reports.get_fra_usage string id
       (Reports.sample_driver None None (inl "ORA-01476: divisor is equal to zero"))
       (Some "monitor") (Some "secret") (Some "db-ho-01/ORCL") (Some "PROD")
       Reports.fresh).1
    = inr "Error retrieving FRA information: ORA-01476: divisor is equal to zero".
Proof.
  split.
  - destruct (fra_database_errors string id
                (Reports.sample_driver None (Some "ORA-12541: TNS:no listener") (inr []))
                (Some "monitor") (Some "secret") (Some "db-ho-01/ORCL") (Some "PROD")
                Reports.fresh "ORA-12541: TNS:no listener") as [H _].
    by rewrite (H eq_refl).
  - destruct (fra_database_errors string id
                (Reports.sample_driver None None
                   (inl "ORA-01476: divisor is equal to zero"))
                (Some "monitor") (Some "secret") (Some "db-ho-01/ORCL") (Some "PROD")
                Reports.fresh "ORA-01476: divisor is equal to zero") as [_ H].
    by rewrite (H eq_refl eq_refl).
Defined.

Lemma fra_null_cell_witness :
  (Reports.get_fra_usage string id
     (Reports.sample_driver None None
        (inr [ (None, Some "0.00", Some "0.00", Some "0.00", Some "0.00") ]))
     None None None None Reports.fresh).1
  = inr ("Error retrieving FRA information: "
           +:+ "unsupported format string passed to NoneType.__format__").
Proof.
  by rewrite (fra_null_cell string id
                (Reports.sample_driver None None
                   (inr [ (None, Some "0.00", Some "0.00", Some "0.00", Some "0.00") ]))
                None None None None Reports.fresh _ eq_refl eq_refl eq_refl).
Defined.


Lemma fra_exit_status_witness :
  Reports.exit_status
    (Reports.fra_script string id id ∅
       (Reports.sample_driver (Some "DPI-1047: cannot locate a 64-bit Oracle Client library")
          None (inr []))
       Reports.db1 Reports.fresh).1 = 1
  ∧ Reports.exit_status
      (Reports.fra_script string id id ∅
         (Reports.sample_driver None None (inl "ORA-01476: divisor is equal to zero"))
         Reports.db2 Reports.fresh).1 = 0.
Proof.
  split.
  - destruct (fra_exit_status string id id ∅
                (Reports.sample_driver
                   (Some "DPI-1047: cannot locate a 64-bit Oracle Client library")
                   None (inr []))
                Reports.db1) as [H _].
    by rewrite (H _ eq_refl).
  - destruct (fra_exit_status string id id ∅
                (Reports.sample_driver None None
                   (inl "ORA-01476: divisor is equal to zero"))
                Reports.db2) as [_ H].
    exact (proj1 (H eq_refl)).
Defined.
